(** * The test-effort estimator of [app.py]

    A shallow embedding of the estimation logic of [app.py]: the
    configuration tables ([SUBSTEP_CONFIG], [PROJECT_STEPS] and the two
    multiplier tables), the helper [calculate_hours], the loop that
    accumulates [total_hours] and the results section.

    Conventions of the embedding.
    - Hours are Python floats in the source.  The program is embedded
      twice.  In the first embedding every numeric literal is read as the
      rational number it denotes and [+] and [*] are the exact operations
      on canonical rationals ([Qc]); it serves for the statements that do
      not depend on rounding.  Module [Binary64] embeds the same code with
      the binary64 numbers and operations the source runs on; it serves
      where rounding decides.
    - A configuration dictionary is a record of optional entries, one per
      key the program reads; an absent key is [None].  A multiplier table
      is looked up with a key chosen at run time, so it is a finite map.
    - A failing dictionary subscript raises [KeyError]; computations that
      may raise live in the [result] monad.
    - The Streamlit widgets are the inputs of the loop: a [ui] answers
      every [checkbox] and [multiselect] call the loop makes. *)

From Stdlib Require Import PrimFloat FloatOps SpecFloat.
From Stdlib Require Import QArith Qcanon.
From stdpp Require Import gmap strings list fin_maps numbers.

#[local] Set Warnings "-inexact-float".

Local Open Scope string_scope.
Local Open Scope Qc_scope.

(** ** Numbers *)

(** A float literal of the source, as the exact rational it denotes. *)
Definition hrs (q : Q) : Qc := Q2Qc q.
Arguments hrs q%_Q.

(** ** Exceptions *)

Inductive error : Type :=
  | KeyError (key : string).

Inductive result (A : Type) : Type :=
  | Ok (a : A)
  | Raise (e : error).
Arguments Ok {A} a.
Arguments Raise {A} e.

#[global] Instance result_ret : MRet result := λ A a, Ok a.

#[global] Instance result_bind : MBind result := λ A B k r,
  match r with
  | Ok a => k a
  | Raise e => Raise e
  end.

#[global] Instance error_eq_dec : EqDecision error.
Proof. solve_decision. Defined.

#[global] Instance result_eq_dec {A : Type} `{EqDecision A} :
  EqDecision (result A).
Proof. solve_decision. Defined.

(** ** Dictionaries *)

(** [d[k]] on a multiplier table. *)
Definition getitem (d : gmap string Qc) (k : string) : result Qc :=
  match d !! k with
  | Some v => Ok v
  | None => Raise (KeyError k)
  end.

(** The value stored under ["substeps"]: Python's [None] or a list. *)
Inductive substeps_value : Type :=
  | PyNone
  | PyList (names : list string).

(** Truth value of [config["substeps"]] in an [if]. *)
Definition truthy (v : substeps_value) : bool :=
  match v with
  | PyNone => false
  | PyList [] => false
  | PyList (_ :: _) => true
  end.

Definition options_of (v : substeps_value) : list string :=
  match v with
  | PyNone => []
  | PyList l => l
  end.

(** A configuration dictionary: the keys [calculate_hours] and the loop
    read, each present or absent. *)
Record config : Type := Config {
  base : option Qc;
  base_hours : option Qc;
  per_sample : option Qc;
  hours_per_sample : option Qc;
  multipliers : option (gmap string Qc);
  complexity_multipliers : option (gmap string Qc);
  substeps : option substeps_value
}.

(** ** Configuration section of the source *)

(** A dictionary with the key names of [SUBSTEP_CONFIG]. *)
Definition substep_config (b p : Qc) (m : gmap string Qc) : config := {|
  base := None;
  base_hours := Some b;
  per_sample := None;
  hours_per_sample := Some p;
  multipliers := None;
  complexity_multipliers := Some m;
  substeps := None
|}.

Definition SUBSTEP_CONFIG : config :=
  substep_config (hrs 0.0) (hrs 0.5)
    {[ "Easy" := hrs 1.0; "Medium" := hrs 1.25; "High" := hrs 1.5 ]}.

Definition EXECUTION_SUBSTEPS : list string :=
  [ "Thermal Cycling/Thermal Shock"; "Vibration"; "Fluid Susceptibility";
    "Salt Fog"; "Seal Integrity"; "Discontinuity Monitoring System" ].

Definition ATP_SUBSTEPS : list string :=
  [ "Visual Inspection"; "Partial Discharge"; "Insulation Resistance";
    "Dielectric Withstanding Voltage"; "Electrical Bonding Resistance";
    "Tear Down Inspection" ].

Definition DEFAULT_MULTS : gmap string Qc :=
  {[ "Easy" := hrs 1.0; "Medium" := hrs 1.0; "High" := hrs 1.0 ]}.

Definition COMPLEX_MULTS : gmap string Qc :=
  {[ "Easy" := hrs 1.0; "Medium" := hrs 1.2; "High" := hrs 1.5 ]}.

(** A dictionary with the key names of the [PROJECT_STEPS] entries. *)
Definition step (b p : Qc) (m : gmap string Qc) (s : substeps_value)
    : config := {|
  base := Some b;
  base_hours := None;
  per_sample := Some p;
  hours_per_sample := None;
  multipliers := Some m;
  complexity_multipliers := None;
  substeps := Some s
|}.

(** [PROJECT_STEPS.items()]: the entries in insertion order. *)
Definition PROJECT_STEPS : list (string * config) :=
  [ ("Conformity Delegation", step (hrs 2.0) (hrs 0.0) DEFAULT_MULTS PyNone);
    ("Creation of UUT", step (hrs 2.0) (hrs 1.0) COMPLEX_MULTS PyNone);
    ("Creation of Test Plan", step (hrs 4.0) (hrs 0.0) COMPLEX_MULTS PyNone);
    ("Test Facility Selection", step (hrs 2.0) (hrs 0.0) DEFAULT_MULTS PyNone);
    ("NDA", step (hrs 1.0) (hrs 0.0) DEFAULT_MULTS PyNone);
    ("Subcontract", step (hrs 2.0) (hrs 0.0) DEFAULT_MULTS PyNone);
    ("TRR 1", step (hrs 3.0) (hrs 0.0) DEFAULT_MULTS PyNone);
    ("UUT Conformity", step (hrs 1.0) (hrs 0.5) DEFAULT_MULTS PyNone);
    ("Pre-ATP", step (hrs 1.0) (hrs 0.0) COMPLEX_MULTS (PyList ATP_SUBSTEPS));
    ("Test Set-up", step (hrs 4.0) (hrs 0.0) COMPLEX_MULTS PyNone);
    ("TRR 2", step (hrs 2.0) (hrs 0.0) DEFAULT_MULTS PyNone);
    ("Test Execution",
       step (hrs 2.0) (hrs 0.0) COMPLEX_MULTS (PyList EXECUTION_SUBSTEPS));
    ("Post-ATP", step (hrs 1.0) (hrs 0.0) COMPLEX_MULTS (PyList ATP_SUBSTEPS));
    ("Test Reporting", step (hrs 4.0) (hrs 1.0) DEFAULT_MULTS PyNone);
    ("Archiving", step (hrs 1.0) (hrs 0.0) DEFAULT_MULTS PyNone) ].

(** The options of the complexity [selectbox]. *)
Inductive ComplexityTier : Type := Easy | Medium | High.

Definition tier_key (t : ComplexityTier) : string :=
  match t with
  | Easy => "Easy"
  | Medium => "Medium"
  | High => "High"
  end.

Definition COMPLEXITY_OPTIONS : list string := ["Easy"; "Medium"; "High"].

(** ** Helper function of the source *)

(** [config.get("base", config.get("base_hours", 0))] *)
Definition base_of (config : config) : Qc :=
  default (default 0 (base_hours config)) (base config).

(** [config.get("per_sample", config.get("hours_per_sample", 0))] *)
Definition per_sample_of (config : config) : Qc :=
  default (default 0 (hours_per_sample config)) (per_sample config).

(** [config.get("multipliers", config.get("complexity_multipliers", DEFAULT_MULTS))] *)
Definition multipliers_of (config : config) : gmap string Qc :=
  default (default DEFAULT_MULTS (complexity_multipliers config))
          (multipliers config).

Definition calculate_hours (config : config) (num_samples : Z)
    (complexity : string) : result Qc :=
  let base := base_of config in
  let per_sample := per_sample_of config in
  let multipliers := multipliers_of config in
  let raw_hours := base + per_sample * Qc_of_Z num_samples in
  m ← getitem multipliers complexity;
  Ok (raw_hours * m).

(** ** Main loop of the source *)

(** What the widgets answer during one run of the script. *)
Record ui : Type := UI {
  (** [st.checkbox(..., key=key)] *)
  checkbox : string → bool;
  (** [st.multiselect(..., options=options, key=key)] *)
  multiselect : list string → string → list string
}.

(** [config["substeps"]] *)
Definition get_substeps (config : config) : result substeps_value :=
  match substeps config with
  | Some v => Ok v
  | None => Raise (KeyError "substeps")
  end.

(** The variables the loop updates: [total_hours], and the captions
    [(step_name, estimated_step_cost)] shown next to the selected steps. *)
Record loop_state : Type := LoopState {
  total_hours : Qc;
  captions : list (string * Qc)
}.

Section main.
Context (widgets : ui) (num_samples : Z) (complexity : string).

(** [for sub in selected_subs]: both accumulators grow by [sub_cost]. *)
Fixpoint substep_loop (selected_subs : list string)
    (total estimated_step_cost : Qc) : result (Qc * Qc) :=
  match selected_subs with
  | [] => Ok (total, estimated_step_cost)
  | _ :: rest =>
      sub_cost ← calculate_hours SUBSTEP_CONFIG num_samples complexity;
      substep_loop rest (total + sub_cost) (estimated_step_cost + sub_cost)
  end.

(** One iteration of [for step_name, config in PROJECT_STEPS.items()]. *)
Definition loop_body (st : loop_state) (item : string * config)
    : result loop_state :=
  let '(step_name, config) := item in
  estimated_step_cost ← calculate_hours config num_samples complexity;
  if checkbox widgets step_name then
    let total := total_hours st + estimated_step_cost in
    subs ← get_substeps config;
    if truthy subs then
      let selected_subs :=
        multiselect widgets (options_of subs) (step_name +:+ "_sub") in
      '(total, estimated_step_cost) ←
        substep_loop selected_subs total estimated_step_cost;
      Ok (LoopState total (captions st ++ [(step_name, estimated_step_cost)]))
    else
      Ok (LoopState total (captions st ++ [(step_name, estimated_step_cost)]))
  else Ok st.

Fixpoint run_loop (steps : list (string * config)) (st : loop_state)
    : result loop_state :=
  match steps with
  | [] => Ok st
  | item :: rest => st' ← loop_body st item; run_loop rest st'
  end.

(** The script from [total_hours = 0.0] to the end of the loop. *)
Definition main (steps : list (string * config)) : result loop_state :=
  run_loop steps (LoopState 0 []).

(** The figure shown as "Total Hours". *)
Definition computeTotal (steps : list (string * config)) : result Qc :=
  st ← main steps; Ok (total_hours st).

(** The caption of one selected step: its own cost plus its substeps. *)
Definition computeStepCost (step_name : string) (config : config)
    : result (option Qc) :=
  st ← loop_body (LoopState 0 []) (step_name, config);
  Ok (snd <$> head (captions st)).
End main.

(** ** Inputs used in the examples *)

(** [PROJECT_STEPS[name]] *)
Fixpoint steps_get (steps : list (string * config)) (name : string)
    : option config :=
  match steps with
  | [] => None
  | (k, v) :: rest => if decide (k = name) then Some v else steps_get rest name
  end.

(** Only the step [name] is ticked, and its multiselect returns [subs]. *)
Definition only_step (name : string) (subs : list string) : ui := {|
  checkbox := λ key, bool_decide (key = name);
  multiselect := λ _ key, if decide (key = name +:+ "_sub") then subs else []
|}.

(** No checkbox is ticked. *)
Definition nothing_selected : ui := {|
  checkbox := λ _, false;
  multiselect := λ _ _, []
|}.

(** A dictionary that carries no multiplier table at all. *)
Definition bare_config (b p : Qc) : config := {|
  base := Some b;
  base_hours := None;
  per_sample := Some p;
  hours_per_sample := None;
  multipliers := None;
  complexity_multipliers := None;
  substeps := Some PyNone
|}.

(** ** Closed form of one iteration

    The functions below are not in the source: they say in one expression
    what an iteration of the loop adds to [total_hours].  Lemma
    [loop_body_contribution] proves that [loop_body] computes exactly
    this. *)

Section contribution.
Context (widgets : ui) (num_samples : Z) (complexity : string).

(** What [for sub in selected_subs] adds: one [SUBSTEP_CONFIG] cost per
    element of the selection, no call at all for an empty selection. *)
Definition substeps_cost (selected_subs : list string) : result Qc :=
  match selected_subs with
  | [] => Ok 0
  | _ :: _ =>
      sub_cost ← calculate_hours SUBSTEP_CONFIG num_samples complexity;
      Ok (Qc_of_Z (Z.of_nat (length selected_subs)) * sub_cost)
  end.

(** What one iteration adds to [total_hours]; for a ticked step this is
    also the final [estimated_step_cost]. *)
Definition contribution (item : string * config) : result Qc :=
  let '(step_name, config) := item in
  estimated_step_cost ← calculate_hours config num_samples complexity;
  if checkbox widgets step_name then
    subs ← get_substeps config;
    if truthy subs then
      extra ← substeps_cost
        (multiselect widgets (options_of subs) (step_name +:+ "_sub"));
      Ok (estimated_step_cost + extra)
    else Ok estimated_step_cost
  else Ok 0.

(** The caption an iteration appends. *)
Definition caption_of (item : string * config) (cost : Qc)
    : list (string * Qc) :=
  if checkbox widgets item.1 then [(item.1, cost)] else [].

Fixpoint sum_contributions (steps : list (string * config)) : result Qc :=
  match steps with
  | [] => Ok 0
  | item :: rest =>
      d ← contribution item;
      r ← sum_contributions rest;
      Ok (d + r)
  end.
End contribution.

(** ** Well-formed configurations *)

(** The multiplier table consulted for [cfg] has the three tiers. *)
Definition defines_tiers (cfg : config) : Prop :=
  Forall (λ k, is_Some (multipliers_of cfg !! k)) COMPLEXITY_OPTIONS.

(** A step entry: the three tiers and a ["substeps"] key. *)
Definition well_formed_step (cfg : config) : Prop :=
  defines_tiers cfg ∧ is_Some (substeps cfg).

(** No negative base, per-sample rate or multiplier. *)
Definition nonneg_config (cfg : config) : Prop :=
  0 ≤ base_of cfg ∧ 0 ≤ per_sample_of cfg
  ∧ map_Forall (λ _ m, 0 ≤ m) (multipliers_of cfg).

(** [w2] selects at least what [w1] selects: every step ticked in [w1] is
    ticked in [w2], and its selected substeps are among those of [w2]. *)
Definition enlarges (w1 w2 : ui) : Prop :=
  ∀ name, checkbox w1 name = true →
    checkbox w2 name = true
    ∧ ∀ opts, multiselect w1 opts (name +:+ "_sub")
              ⊆+ multiselect w2 opts (name +:+ "_sub").

#[global] Instance defines_tiers_dec (cfg : config) :
  Decision (defines_tiers cfg).
Proof. unfold defines_tiers. apply _. Defined.

#[global] Instance well_formed_step_dec (cfg : config) :
  Decision (well_formed_step cfg).
Proof. unfold well_formed_step. apply _. Defined.

#[global] Instance nonneg_config_dec (cfg : config) :
  Decision (nonneg_config cfg).
Proof. unfold nonneg_config. apply _. Defined.

(** ** Results section of the source *)

(** [min(a, b)] of Python: the first argument unless the second is
    strictly smaller. *)
Definition py_min (a b : Qc) : Qc := if decide (b < a) then b else a.

(** The argument of [st.progress], when the bar is drawn:
    [if total_hours > 0: st.progress(min(total_hours / 200, 1.0))]. *)
Definition progress_value (total_hours : Qc) : option Qc :=
  if decide (0 < total_hours) then
    Some (py_min (total_hours / Qc_of_Z 200) (hrs 1.0))
  else None.

(** What one run of the script puts on the page: the captions of the
    ticked steps, the "Total Hours" metric and the progress bar. *)
Record page : Type := Page {
  page_captions : list (string * Qc);
  page_total : Qc;
  page_progress : option Qc
}.

(** The script from the loop to the end, over the shipped steps. *)
Definition script (widgets : ui) (num_samples : Z) (complexity : string)
    : result page :=
  st ← main widgets num_samples complexity PROJECT_STEPS;
  Ok (Page (captions st) (total_hours st) (progress_value (total_hours st))).

(** ** Further notions used in the statements *)

(** The position of a tier in the list of options. *)
Definition tier_rank (t : ComplexityTier) : nat :=
  match t with
  | Easy => 0
  | Medium => 1
  | High => 2
  end.

(** The table consulted for [cfg] grows from "Easy" to "High", from a
    non-negative start. *)
Definition tiers_ordered (cfg : config) : Prop :=
  match multipliers_of cfg !! "Easy", multipliers_of cfg !! "Medium",
        multipliers_of cfg !! "High" with
  | Some e, Some m, Some h => 0 ≤ e ∧ e ≤ m ∧ m ≤ h
  | _, _, _ => False
  end.

(** A positive base, and no negative rate or non-positive multiplier. *)
Definition pos_config (cfg : config) : Prop :=
  0 < base_of cfg ∧ 0 ≤ per_sample_of cfg
  ∧ map_Forall (λ _ m, 0 < m) (multipliers_of cfg).

#[global] Instance tiers_ordered_dec (cfg : config) :
  Decision (tiers_ordered cfg).
Proof. unfold tiers_ordered. repeat case_match; apply _. Defined.

#[global] Instance pos_config_dec (cfg : config) : Decision (pos_config cfg).
Proof. unfold pos_config. apply _. Defined.

(** ** Widget states *)



(** * The program on binary64 numbers

    The same code with the numbers the source computes with: every literal
    is the double Python reads it as, [+] and [*] round to nearest, ties to
    even.  Exceptions, substep lists and widgets are those above. *)

Module Binary64.
Local Open Scope float_scope.

(** [float(n)] for an [int]: the nearest double, ties to even.  Python
    raises [OverflowError] where this is an infinity, for counts no
    [number_input] delivers. *)
Definition float_of_int (n : Z) : float :=
  SF2Prim (binary_normalize prec emax n 0 false).

(** [d[k]] on a multiplier table. *)
Definition getitem (d : gmap string float) (k : string) : result float :=
  match d !! k with
  | Some v => Ok v
  | None => Raise (KeyError k)
  end.

Record config : Type := Config {
  base : option float;
  base_hours : option float;
  per_sample : option float;
  hours_per_sample : option float;
  multipliers : option (gmap string float);
  complexity_multipliers : option (gmap string float);
  substeps : option substeps_value
}.

Definition substep_config (b p : float) (m : gmap string float) : config := {|
  base := None;
  base_hours := Some b;
  per_sample := None;
  hours_per_sample := Some p;
  multipliers := None;
  complexity_multipliers := Some m;
  substeps := None
|}.

Definition SUBSTEP_CONFIG : config :=
  substep_config 0.0 0.5
    {[ "Easy" := 1.0; "Medium" := 1.25; "High" := 1.5 ]}.

Definition DEFAULT_MULTS : gmap string float :=
  {[ "Easy" := 1.0; "Medium" := 1.0; "High" := 1.0 ]}.

Definition COMPLEX_MULTS : gmap string float :=
  {[ "Easy" := 1.0; "Medium" := 1.2; "High" := 1.5 ]}.

Definition step (b p : float) (m : gmap string float) (s : substeps_value)
    : config := {|
  base := Some b;
  base_hours := None;
  per_sample := Some p;
  hours_per_sample := None;
  multipliers := Some m;
  complexity_multipliers := None;
  substeps := Some s
|}.

Definition PROJECT_STEPS : list (string * config) :=
  [ ("Conformity Delegation", step 2.0 0.0 DEFAULT_MULTS PyNone);
    ("Creation of UUT", step 2.0 1.0 COMPLEX_MULTS PyNone);
    ("Creation of Test Plan", step 4.0 0.0 COMPLEX_MULTS PyNone);
    ("Test Facility Selection", step 2.0 0.0 DEFAULT_MULTS PyNone);
    ("NDA", step 1.0 0.0 DEFAULT_MULTS PyNone);
    ("Subcontract", step 2.0 0.0 DEFAULT_MULTS PyNone);
    ("TRR 1", step 3.0 0.0 DEFAULT_MULTS PyNone);
    ("UUT Conformity", step 1.0 0.5 DEFAULT_MULTS PyNone);
    ("Pre-ATP", step 1.0 0.0 COMPLEX_MULTS (PyList ATP_SUBSTEPS));
    ("Test Set-up", step 4.0 0.0 COMPLEX_MULTS PyNone);
    ("TRR 2", step 2.0 0.0 DEFAULT_MULTS PyNone);
    ("Test Execution", step 2.0 0.0 COMPLEX_MULTS (PyList EXECUTION_SUBSTEPS));
    ("Post-ATP", step 1.0 0.0 COMPLEX_MULTS (PyList ATP_SUBSTEPS));
    ("Test Reporting", step 4.0 1.0 DEFAULT_MULTS PyNone);
    ("Archiving", step 1.0 0.0 DEFAULT_MULTS PyNone) ].

(** The dictionaries of the source hold floats; the [0] an absent key
    defaults to is read as [0.0]. *)
Definition calculate_hours (config : config) (num_samples : Z)
    (complexity : string) : result float :=
  let base := default (default 0.0 (base_hours config)) (base config) in
  let per_sample :=
    default (default 0.0 (hours_per_sample config)) (per_sample config) in
  let multipliers :=
    default (default DEFAULT_MULTS (complexity_multipliers config))
            (multipliers config) in
  let raw_hours := base + per_sample * float_of_int num_samples in
  m ← getitem multipliers complexity;
  Ok (raw_hours * m).

Definition get_substeps (config : config) : result substeps_value :=
  match substeps config with
  | Some v => Ok v
  | None => Raise (KeyError "substeps")
  end.

Record loop_state : Type := LoopState {
  total_hours : float;
  captions : list (string * float)
}.

Section main.
Context (widgets : ui) (num_samples : Z) (complexity : string).

Fixpoint substep_loop (selected_subs : list string)
    (total estimated_step_cost : float) : result (float * float) :=
  match selected_subs with
  | [] => Ok (total, estimated_step_cost)
  | _ :: rest =>
      sub_cost ← calculate_hours SUBSTEP_CONFIG num_samples complexity;
      substep_loop rest (total + sub_cost) (estimated_step_cost + sub_cost)
  end.

Definition loop_body (st : loop_state) (item : string * config)
    : result loop_state :=
  let '(step_name, config) := item in
  estimated_step_cost ← calculate_hours config num_samples complexity;
  if checkbox widgets step_name then
    let total := total_hours st + estimated_step_cost in
    subs ← get_substeps config;
    if truthy subs then
      let selected_subs :=
        multiselect widgets (options_of subs) (step_name +:+ "_sub") in
      '(total, estimated_step_cost) ←
        substep_loop selected_subs total estimated_step_cost;
      Ok (LoopState total (captions st ++ [(step_name, estimated_step_cost)]))
    else
      Ok (LoopState total (captions st ++ [(step_name, estimated_step_cost)]))
  else Ok st.

Fixpoint run_loop (steps : list (string * config)) (st : loop_state)
    : result loop_state :=
  match steps with
  | [] => Ok st
  | item :: rest => st' ← loop_body st item; run_loop rest st'
  end.

Definition main (steps : list (string * config)) : result loop_state :=
  run_loop steps (LoopState 0.0 []).

Definition computeTotal (steps : list (string * config)) : result float :=
  st ← main steps; Ok (total_hours st).


End main.

End Binary64.

(** * Properties of [calculate_hours] *)

Lemma getitem_Some (d : gmap string Qc) (k : string) (v : Qc) :
  d !! k = Some v → getitem d k = Ok v.
Proof. unfold getitem. by intros ->. Qed.

Lemma getitem_None (d : gmap string Qc) (k : string) :
  d !! k = None → getitem d k = Raise (KeyError k).
Proof. unfold getitem. by intros ->. Qed.

(** The value of a call whose multiplier lookup succeeds. *)
Lemma calculate_hours_Ok (cfg : config) (n : Z) (c : string) (m : Qc) :
  multipliers_of cfg !! c = Some m →
  calculate_hours cfg n c
  = Ok ((base_of cfg + per_sample_of cfg * Qc_of_Z n) * m).
Proof.
  intros Hm. unfold calculate_hours. by rewrite (getitem_Some _ _ _ Hm).
Qed.

(** A call fails exactly when the multiplier lookup does. *)
Lemma calculate_hours_Raise (cfg : config) (n : Z) (c : string) :
  multipliers_of cfg !! c = None →
  calculate_hours cfg n c = Raise (KeyError c).
Proof.
  intros Hm. unfold calculate_hours. by rewrite (getitem_None _ _ Hm).
Qed.

Lemma calculate_hours_inv (cfg : config) (n : Z) (c : string) (h : Qc) :
  calculate_hours cfg n c = Ok h →
  ∃ m, multipliers_of cfg !! c = Some m
       ∧ h = (base_of cfg + per_sample_of cfg * Qc_of_Z n) * m.
Proof.
  unfold calculate_hours, getitem.
  destruct (multipliers_of cfg !! c) as [m|] eqn:Hm; simpl; [|done].
  intros [= <-]. by exists m.
Qed.

(** C2: for a formula (base, perSample, multipliers), written with either
    set of key names the source accepts, a positive sample count [n] and a
    tier [t] of the table, [calculate_hours] returns exactly
    [(base + perSample * n) * multipliers[t]]. *)
Theorem calculate_hours_contract (b p : Qc) (M : gmap string Qc)
    (s : substeps_value) (n : Z) (t : ComplexityTier) (m : Qc) :
  (0 < n)%Z →
  M !! tier_key t = Some m →
  calculate_hours (step b p M s) n (tier_key t) = Ok ((b + p * Qc_of_Z n) * m)
  ∧ calculate_hours (substep_config b p M) n (tier_key t)
    = Ok ((b + p * Qc_of_Z n) * m).
Proof.
  intros _ Hm. split; by apply calculate_hours_Ok.
Qed.

Lemma calculate_hours_contract_witness :
  calculate_hours (step (hrs 2.0) (hrs 1.0) COMPLEX_MULTS PyNone) 3
    (tier_key High)
  = Ok ((hrs 2.0 + hrs 1.0 * Qc_of_Z 3) * hrs 1.5)
  ∧ calculate_hours (substep_config (hrs 2.0) (hrs 1.0) COMPLEX_MULTS) 3
      (tier_key High)
    = Ok ((hrs 2.0 + hrs 1.0 * Qc_of_Z 3) * hrs 1.5).
Proof.
  apply (calculate_hours_contract _ _ COMPLEX_MULTS PyNone 3 High).
  - lia.
  - compute_done.
Defined.

(** C3, as stated, fails: with a sample count of 0 or -3 the call returns a
    number (a negative one in the second case) instead of failing. *)
Lemma nonpositive_samples_counterexample :
  calculate_hours (step (hrs 2.0) (hrs 1.0) COMPLEX_MULTS PyNone) 0
    (tier_key Easy) = Ok (hrs 2.0)
  ∧ calculate_hours (step (hrs 2.0) (hrs 1.0) COMPLEX_MULTS PyNone) (-3)
      (tier_key High) = Ok (- hrs 1.5).
Proof. split; compute_done. Qed.

(** C3, amended: [calculate_hours] does not inspect the sample count.  For
    a zero or negative count and a tier of the table it returns
    [(base + perSample * n) * multiplier] like for any other count, and so
    never fails on account of the count. *)
Theorem calculate_hours_nonpositive_samples (cfg : config) (n : Z)
    (t : ComplexityTier) (m : Qc) :
  (n ≤ 0)%Z →
  multipliers_of cfg !! tier_key t = Some m →
  calculate_hours cfg n (tier_key t)
  = Ok ((base_of cfg + per_sample_of cfg * Qc_of_Z n) * m).
Proof. intros _. apply calculate_hours_Ok. Qed.

Lemma calculate_hours_nonpositive_samples_witness :
  calculate_hours SUBSTEP_CONFIG (-2) (tier_key Medium)
  = Ok ((base_of SUBSTEP_CONFIG + per_sample_of SUBSTEP_CONFIG * Qc_of_Z (-2))
        * hrs 1.25).
Proof.
  apply (calculate_hours_nonpositive_samples SUBSTEP_CONFIG (-2) Medium).
  - lia.
  - compute_done.
Defined.

Lemma DEFAULT_MULTS_lookup_other (c : string) :
  c ∉ COMPLEXITY_OPTIONS → DEFAULT_MULTS !! c = None.
Proof.
  unfold COMPLEXITY_OPTIONS, DEFAULT_MULTS. intros Hc.
  rewrite !lookup_insert_ne, lookup_singleton_ne; [done|..];
    intros <-; apply Hc; set_solver.
Qed.

(** C4, as stated, fails: a dictionary that carries no multiplier table is
    not refused.  For "Medium" it silently gets the multiplier 1.0 of
    [DEFAULT_MULTS] and a number is returned. *)
Lemma default_multiplier_counterexample :
  multipliers (bare_config (hrs 2.0) (hrs 1.0)) = None
  ∧ complexity_multipliers (bare_config (hrs 2.0) (hrs 1.0)) = None
  ∧ calculate_hours (bare_config (hrs 2.0) (hrs 1.0)) 4 (tier_key Medium)
    = Ok ((hrs 2.0 + hrs 1.0 * Qc_of_Z 4) * hrs 1.0).
Proof. repeat split; compute_done. Qed.

(** C4, amended: [calculate_hours] fails exactly when the table it
    consults has no entry for the complexity, and then with the [KeyError]
    of the subscript.  For a formula that carries a table (under either
    key name) this is its own table: an unrecognised tier or a table that
    lacks the tier fails, and no default multiplier is used.  A dictionary
    that carries no table is looked up in [DEFAULT_MULTS]: for "Easy",
    "Medium" and "High" it silently gets the multiplier 1.0, and it fails
    for every other key. *)
Theorem calculate_hours_missing_multiplier (b p : Qc) (M : gmap string Qc)
    (s : substeps_value) (n : Z) (c : string) :
  (0 < n)%Z →
  (∀ cfg, calculate_hours cfg n c = Raise (KeyError c)
          ↔ multipliers_of cfg !! c = None)
  ∧ (M !! c = None →
     calculate_hours (step b p M s) n c = Raise (KeyError c)
     ∧ calculate_hours (substep_config b p M) n c = Raise (KeyError c))
  ∧ (∀ t, calculate_hours (bare_config b p) n (tier_key t)
          = Ok ((b + p * Qc_of_Z n) * hrs 1.0))
  ∧ (c ∉ COMPLEXITY_OPTIONS →
     calculate_hours (bare_config b p) n c = Raise (KeyError c)).
Proof.
  intros _. split; [|split; [|split]].
  - intros cfg. split; [|apply calculate_hours_Raise].
    destruct (multipliers_of cfg !! c) as [m|] eqn:Hm; [|done].
    by rewrite (calculate_hours_Ok _ _ _ _ Hm).
  - intros Hc. split; by apply calculate_hours_Raise.
  - intros t. apply calculate_hours_Ok. destruct t; compute_done.
  - intros Hc. by apply calculate_hours_Raise, DEFAULT_MULTS_lookup_other.
Qed.

Lemma calculate_hours_missing_multiplier_witness :
  (calculate_hours
     (step (hrs 2.0) (hrs 1.0) {[ "Easy" := hrs 1.0 ]} PyNone) 4 "Medium"
   = Raise (KeyError "Medium")
   ∧ calculate_hours
       (substep_config (hrs 2.0) (hrs 1.0) {[ "Easy" := hrs 1.0 ]}) 4 "Medium"
     = Raise (KeyError "Medium"))
  ∧ calculate_hours (bare_config (hrs 2.0) (hrs 1.0)) 4 "Extreme"
    = Raise (KeyError "Extreme").
Proof.
  destruct (calculate_hours_missing_multiplier (hrs 2.0) (hrs 1.0)
              {[ "Easy" := hrs 1.0 ]} PyNone 4 "Medium") as (_ & H1 & _);
    [lia|].
  destruct (calculate_hours_missing_multiplier (hrs 2.0) (hrs 1.0)
              ∅ PyNone 4 "Extreme") as (_ & _ & _ & H2); [lia|].
  split.
  - apply H1. compute_done.
  - apply H2. compute_done.
Defined.




(** * Properties of the loop *)

Section loop.
Context (widgets : ui) (num_samples : Z) (complexity : string).

Lemma Qc_of_Z_succ (k : nat) :
  Qc_of_Z (Z.of_nat (S k)) = 1 + Qc_of_Z (Z.of_nat k).
Proof. by rewrite Nat2Z.inj_succ, <-Z.add_1_l, Z2Qc_inj_add, Z2Qc_inj_1. Qed.

Lemma substep_loop_closed (selected_subs : list string) (total est : Qc) :
  substep_loop num_samples complexity selected_subs total est
  = extra ← substeps_cost num_samples complexity selected_subs;
    Ok (total + extra, est + extra).
Proof.
  revert total est. induction selected_subs as [|sub rest IH]; intros total est.
  - simpl. do 2 f_equal; ring.
  - cbn [substep_loop substeps_cost].
    destruct (calculate_hours SUBSTEP_CONFIG num_samples complexity)
      as [sub_cost|e] eqn:Hsub; [|done].
    cbn [mbind result_bind]. rewrite IH.
    destruct rest as [|sub' rest]; cbn [substeps_cost].
    + cbn [mbind result_bind length].
      change (Z.of_nat 1) with 1%Z. rewrite Z2Qc_inj_1.
      do 2 f_equal; ring.
    + rewrite Hsub. cbn [mbind result_bind].
      change (length (sub :: sub' :: rest)) with (S (length (sub' :: rest))).
      rewrite Qc_of_Z_succ. do 2 f_equal; ring.
Qed.

(** One iteration adds [contribution item] to the total and appends the
    caption of a ticked step. *)
Lemma loop_body_contribution (st : loop_state) (item : string * config) :
  loop_body widgets num_samples complexity st item
  = d ← contribution widgets num_samples complexity item;
    Ok (LoopState (total_hours st + d)
          (captions st ++ caption_of widgets item d)).
Proof.
  destruct item as [step_name cfg], st as [total caps].
  unfold loop_body, contribution, caption_of.
  cbn [fst total_hours captions].
  destruct (calculate_hours cfg num_samples complexity) as [est|e]; [|done].
  cbn [mbind result_bind].
  destruct (checkbox widgets step_name).
  - destruct (get_substeps cfg) as [subs|e]; [|done].
    cbn [mbind result_bind]. destruct (truthy subs); [|done].
    rewrite substep_loop_closed.
    destruct (substeps_cost _ _ _) as [extra|e]; [|done].
    cbn [mbind result_bind]. by rewrite Qcplus_assoc.
  - cbn. rewrite app_nil_r. do 2 f_equal. ring.
Qed.

(** The total after the loop is the initial total plus the sum of the
    contributions. *)
Lemma run_loop_total (steps : list (string * config)) (st : loop_state) :
  (st' ← run_loop widgets num_samples complexity steps st;
   Ok (total_hours st'))
  = r ← sum_contributions widgets num_samples complexity steps;
    Ok (total_hours st + r).
Proof.
  revert st. induction steps as [|item rest IH]; intros st.
  - simpl. f_equal. ring.
  - cbn [run_loop sum_contributions].
    rewrite loop_body_contribution.
    destruct (contribution _ _ _ item) as [d|e]; [|done].
    cbn [mbind result_bind]. rewrite IH. cbn [total_hours].
    destruct (sum_contributions _ _ _ rest) as [r|e]; [|done].
    cbn [mbind result_bind]. f_equal. ring.
Qed.

Lemma computeTotal_sum (steps : list (string * config)) :
  computeTotal widgets num_samples complexity steps
  = sum_contributions widgets num_samples complexity steps.
Proof.
  unfold computeTotal, main. rewrite run_loop_total.
  destruct (sum_contributions _ _ _ steps) as [r|e]; [|done].
  cbn. f_equal. ring.
Qed.

End loop.

(** ** The cost shown for one step *)

Lemma substeps_cost_Ok (n : Z) (c : string) (sub_cost : Qc)
    (selected_subs : list string) :
  calculate_hours SUBSTEP_CONFIG n c = Ok sub_cost →
  substeps_cost n c selected_subs
  = Ok (Qc_of_Z (Z.of_nat (length selected_subs)) * sub_cost).
Proof.
  intros Hsub. destruct selected_subs as [|sub rest].
  - cbn [substeps_cost length]. change (Z.of_nat 0) with 0%Z.
    rewrite Z2Qc_inj_0. f_equal. ring.
  - cbn [substeps_cost]. by rewrite Hsub.
Qed.

(** For a ticked step, the caption is the contribution of the step. *)
Lemma computeStepCost_contribution (w : ui) (n : Z) (c : string)
    (name : string) (cfg : config) :
  checkbox w name = true →
  computeStepCost w n c name cfg
  = d ← contribution w n c (name, cfg); Ok (Some d).
Proof.
  intros Hsel. unfold computeStepCost. rewrite loop_body_contribution.
  destruct (contribution w n c (name, cfg)) as [d|e]; [|done].
  unfold caption_of. cbn. by rewrite Hsel.
Qed.

(** The contribution of a ticked step that has substeps. *)
Lemma contribution_with_substeps (w : ui) (n : Z) (c : string)
    (name : string) (cfg : config) (subs : substeps_value) (est sub_cost : Qc) :
  checkbox w name = true →
  substeps cfg = Some subs →
  truthy subs = true →
  calculate_hours cfg n c = Ok est →
  calculate_hours SUBSTEP_CONFIG n c = Ok sub_cost →
  contribution w n c (name, cfg)
  = Ok (est + Qc_of_Z (Z.of_nat (length
            (multiselect w (options_of subs) (name +:+ "_sub")))) * sub_cost).
Proof.
  intros Hsel Hsubs Htrue Hest Hsub. unfold contribution, get_substeps.
  rewrite Hest, Hsel, Hsubs. cbn [mbind result_bind]. rewrite Htrue.
  by rewrite (substeps_cost_Ok _ _ _ _ Hsub).
Qed.

(** The contribution of a ticked step whose ["substeps"] is [None] or an
    empty list. *)
Lemma contribution_without_substeps (w : ui) (n : Z) (c : string)
    (name : string) (cfg : config) (subs : substeps_value) :
  checkbox w name = true →
  substeps cfg = Some subs →
  truthy subs = false →
  contribution w n c (name, cfg) = calculate_hours cfg n c.
Proof.
  intros Hsel Hsubs Hfalse. unfold contribution, get_substeps.
  destruct (calculate_hours cfg n c) as [est|e]; [|done].
  cbn [mbind result_bind]. rewrite Hsel, Hsubs. cbn [mbind result_bind].
  by rewrite Hfalse.
Qed.

(** C1, as stated, fails: with "Vibration" and "Salt Fog" selected, a
    substep does not cost 2.0 hours and the step does not cost 6.4. *)
Lemma scenario_C_counterexample :
  ∃ cfg, steps_get PROJECT_STEPS "Test Execution" = Some cfg
    ∧ calculate_hours SUBSTEP_CONFIG 4 (tier_key Medium) ≠ Ok (hrs 2.0)
    ∧ computeStepCost (only_step "Test Execution" ["Vibration"; "Salt Fog"])
        4 (tier_key Medium) "Test Execution" cfg
      ≠ Ok (Some (hrs 6.4)).
Proof. eexists. split; [reflexivity|]. split; compute_done. Qed.

(** C1, amended: the shared substep table has 1.25 for "Medium".  For
    "Test Execution" with 4 samples, complexity "Medium" and two substeps
    selected, the step itself costs 2.4 hours, each selected substep 2.5
    hours, and the step with its substeps 7.4 hours. *)
Theorem scenario_C (w : ui) (cfg : config) :
  steps_get PROJECT_STEPS "Test Execution" = Some cfg →
  checkbox w "Test Execution" = true →
  length (multiselect w EXECUTION_SUBSTEPS "Test Execution_sub") = 2%nat →
  calculate_hours cfg 4 (tier_key Medium) = Ok (hrs 2.4)
  ∧ calculate_hours SUBSTEP_CONFIG 4 (tier_key Medium) = Ok (hrs 2.5)
  ∧ computeStepCost w 4 (tier_key Medium) "Test Execution" cfg
    = Ok (Some (hrs 7.4)).
Proof.
  intros [= <-] Hsel Hlen.
  assert (calculate_hours
            (step (hrs 2.0) (hrs 0.0) COMPLEX_MULTS (PyList EXECUTION_SUBSTEPS))
            4 (tier_key Medium) = Ok (hrs 2.4)) as Hest by compute_done.
  assert (calculate_hours SUBSTEP_CONFIG 4 (tier_key Medium) = Ok (hrs 2.5))
    as Hsub by compute_done.
  split; [done|]. split; [done|].
  rewrite computeStepCost_contribution by done.
  erewrite contribution_with_substeps; [|done|reflexivity|done|done|done].
  cbn [options_of]. change ("Test Execution" +:+ "_sub")
    with "Test Execution_sub". rewrite Hlen.
  cbn [mbind result_bind]. compute_done.
Qed.

Lemma scenario_C_witness :
  ∃ cfg, steps_get PROJECT_STEPS "Test Execution" = Some cfg
    ∧ calculate_hours cfg 4 (tier_key Medium) = Ok (hrs 2.4)
    ∧ calculate_hours SUBSTEP_CONFIG 4 (tier_key Medium) = Ok (hrs 2.5)
    ∧ computeStepCost (only_step "Test Execution" ["Vibration"; "Salt Fog"])
        4 (tier_key Medium) "Test Execution" cfg
      = Ok (Some (hrs 7.4)).
Proof.
  eexists. split; [reflexivity|].
  apply (scenario_C (only_step "Test Execution" ["Vibration"; "Salt Fog"]));
    reflexivity.
Defined.




(** ** The shipped tables *)

Lemma tier_key_option (t : ComplexityTier) : tier_key t ∈ COMPLEXITY_OPTIONS.
Proof. destruct t; compute_done. Qed.

Lemma PROJECT_STEPS_defined :
  Forall (λ item, well_formed_step item.2) PROJECT_STEPS.
Proof. compute_done. Qed.

Lemma PROJECT_STEPS_nonneg :
  Forall (λ item, nonneg_config item.2) PROJECT_STEPS.
Proof. compute_done. Qed.

Lemma SUBSTEP_CONFIG_well_formed :
  defines_tiers SUBSTEP_CONFIG ∧ nonneg_config SUBSTEP_CONFIG.
Proof. compute_done. Qed.

Lemma defines_tiers_lookup (cfg : config) (t : ComplexityTier) :
  defines_tiers cfg → is_Some (multipliers_of cfg !! tier_key t).
Proof.
  intros Hcfg. unfold defines_tiers in Hcfg. rewrite Forall_forall in Hcfg.
  apply Hcfg, list_elem_of_In, tier_key_option.
Qed.

Lemma calculate_hours_defined (cfg : config) (n : Z) (t : ComplexityTier) :
  defines_tiers cfg → ∃ h, calculate_hours cfg n (tier_key t) = Ok h.
Proof.
  intros Hcfg. destruct (defines_tiers_lookup cfg t Hcfg) as [m Hm].
  eexists. by apply calculate_hours_Ok.
Qed.

Lemma calculate_hours_nonneg (cfg : config) (n : Z) (c : string) (h : Qc) :
  nonneg_config cfg → (0 ≤ n)%Z → calculate_hours cfg n c = Ok h → 0 ≤ h.
Proof.
  intros (Hb & Hp & HM) Hn Hh.
  apply calculate_hours_inv in Hh as (m & Hm & ->).
  apply Qcmult_nonneg_nonneg; [|by apply (HM c)].
  apply Qcplus_nonneg_nonneg; [done|].
  apply Qcmult_nonneg_nonneg; [done|].
  rewrite <-Z2Qc_inj_0. exact (proj1 (Z2Qc_inj_le 0 n) Hn).
Qed.

(** The contribution of a well-formed step for a tier, in closed form. *)
Lemma contribution_well_formed (w : ui) (n : Z) (t : ComplexityTier)
    (name : string) (cfg : config) :
  well_formed_step cfg →
  ∃ est sub_cost subs,
    calculate_hours cfg n (tier_key t) = Ok est
    ∧ calculate_hours SUBSTEP_CONFIG n (tier_key t) = Ok sub_cost
    ∧ substeps cfg = Some subs
    ∧ contribution w n (tier_key t) (name, cfg)
      = Ok (if checkbox w name then
              est + (if truthy subs then
                       Qc_of_Z (Z.of_nat (length
                         (multiselect w (options_of subs) (name +:+ "_sub"))))
                       * sub_cost
                     else 0)
            else 0).
Proof.
  intros [Htiers [subs Hsubs]].
  destruct (calculate_hours_defined cfg n t Htiers) as [est Hest].
  destruct (calculate_hours_defined SUBSTEP_CONFIG n t
              (proj1 SUBSTEP_CONFIG_well_formed)) as [sub_cost Hsub].
  exists est, sub_cost, subs. repeat split; [done..|].
  destruct (checkbox w name) eqn:Hsel.
  - destruct (truthy subs) eqn:Htrue.
    + by apply contribution_with_substeps.
    + rewrite (contribution_without_substeps _ _ _ _ _ _ Hsel Hsubs Htrue).
      rewrite Hest. f_equal. ring.
  - unfold contribution. rewrite Hest. cbn [mbind result_bind].
    by rewrite Hsel.
Qed.

Lemma sum_contributions_defined (w : ui) (n : Z) (t : ComplexityTier)
    (steps : list (string * config)) :
  Forall (λ item, well_formed_step item.2) steps →
  ∃ r, sum_contributions w n (tier_key t) steps = Ok r.
Proof.
  induction 1 as [|[name cfg] rest Hcfg _ [r IH]]; [by eexists|].
  destruct (contribution_well_formed w n t name cfg Hcfg)
    as (est & sub_cost & subs & _ & _ & _ & Hd).
  cbn [sum_contributions]. rewrite Hd, IH. by eexists.
Qed.

Lemma run_loop_defined (w : ui) (n : Z) (t : ComplexityTier)
    (steps : list (string * config)) (st : loop_state) :
  Forall (λ item, well_formed_step item.2) steps →
  ∃ st', run_loop w n (tier_key t) steps st = Ok st'.
Proof.
  intros Hsteps. revert st.
  induction Hsteps as [|[name cfg] rest Hcfg _ IH]; intros st; [by eexists|].
  destruct (contribution_well_formed w n t name cfg Hcfg)
    as (est & sub_cost & subs & _ & _ & _ & Hd).
  cbn [run_loop]. rewrite loop_body_contribution, Hd.
  cbn [mbind result_bind]. apply IH.
Qed.

Lemma sum_contributions_nothing (w : ui) (n : Z) (t : ComplexityTier)
    (steps : list (string * config)) :
  (∀ name, checkbox w name = false) →
  Forall (λ item, well_formed_step item.2) steps →
  sum_contributions w n (tier_key t) steps = Ok 0.
Proof.
  intros Hnone. induction 1 as [|[name cfg] rest Hcfg _ IH]; [done|].
  destruct (contribution_well_formed w n t name cfg Hcfg)
    as (est & sub_cost & subs & _ & _ & _ & Hd).
  cbn [sum_contributions]. rewrite Hd, IH, Hnone.
  cbn [mbind result_bind]. by rewrite Qcplus_0_l.
Qed.

(** C6: with no step ticked, whatever the sample count, the tier and the
    state of the multiselects, the total over the shipped steps is 0. *)
Theorem empty_selection_total (w : ui) (n : Z) (t : ComplexityTier) :
  (∀ name, checkbox w name = false) →
  computeTotal w n (tier_key t) PROJECT_STEPS = Ok 0.
Proof.
  intros Hnone. rewrite computeTotal_sum.
  apply sum_contributions_nothing; [done|].
  apply PROJECT_STEPS_defined.
Qed.

Lemma empty_selection_total_witness :
  computeTotal nothing_selected 7 (tier_key High) PROJECT_STEPS = Ok 0.
Proof. apply (empty_selection_total nothing_selected 7 High). reflexivity. Defined.

(** ** Order of the steps *)








(** ** Totality of the shipped multiplier tables *)

Lemma PROJECT_STEPS_own_tables :
  Forall (λ item, is_Some (multipliers item.2)) PROJECT_STEPS.
Proof. compute_done. Qed.

(** C9: every step of [PROJECT_STEPS] carries its own multiplier table,
    that table and the table of [SUBSTEP_CONFIG] have an entry for each of
    "Easy", "Medium" and "High", so every call of [calculate_hours] made
    for a tier returns, and the loop over the shipped steps never raises. *)
Theorem shipped_multipliers_total (t : ComplexityTier) :
  (∀ name cfg, (name, cfg) ∈ PROJECT_STEPS →
     is_Some (multipliers cfg)
     ∧ is_Some (multipliers_of cfg !! tier_key t)
     ∧ ∀ n, ∃ h, calculate_hours cfg n (tier_key t) = Ok h)
  ∧ is_Some (DEFAULT_MULTS !! tier_key t)
  ∧ is_Some (COMPLEX_MULTS !! tier_key t)
  ∧ is_Some (complexity_multipliers SUBSTEP_CONFIG ≫= (.!! tier_key t))
  ∧ (∀ n, ∃ h, calculate_hours SUBSTEP_CONFIG n (tier_key t) = Ok h)
  ∧ (∀ w n, ∃ st, main w n (tier_key t) PROJECT_STEPS = Ok st).
Proof.
  split; [|split; [|split; [|split; [|split]]]].
  - intros name cfg Hin.
    pose proof (proj1 (list.Forall_forall _ _)
                  PROJECT_STEPS_own_tables _ Hin) as Hown.
    pose proof (proj1 (list.Forall_forall _ _)
                  PROJECT_STEPS_defined _ Hin) as [Htiers _].
    split; [done|]. split; [by apply defines_tiers_lookup|].
    intros n. by apply calculate_hours_defined.
  - destruct t; compute_done.
  - destruct t; compute_done.
  - destruct t; compute_done.
  - intros n. apply calculate_hours_defined, SUBSTEP_CONFIG_well_formed.
  - intros w n. apply run_loop_defined, PROJECT_STEPS_defined.
Qed.

Lemma shipped_multipliers_total_witness :
  is_Some (multipliers
             (step (hrs 1.0) (hrs 0.0) COMPLEX_MULTS (PyList ATP_SUBSTEPS)))
  ∧ is_Some (multipliers_of
               (step (hrs 1.0) (hrs 0.0) COMPLEX_MULTS (PyList ATP_SUBSTEPS))
             !! tier_key Medium)
  ∧ ∀ n, ∃ h,
      calculate_hours
        (step (hrs 1.0) (hrs 0.0) COMPLEX_MULTS (PyList ATP_SUBSTEPS))
        n (tier_key Medium) = Ok h.
Proof.
  apply (proj1 (shipped_multipliers_total Medium) "Pre-ATP").
  apply list_elem_of_lookup. by exists 8%nat.
Defined.

(** ** Growing the selection *)

Lemma Qc_of_nat_nonneg (k : nat) : 0 ≤ Qc_of_Z (Z.of_nat k).
Proof.
  rewrite <-Z2Qc_inj_0. exact (proj1 (Z2Qc_inj_le 0 _) (Nat2Z.is_nonneg k)).
Qed.

Lemma Qc_of_nat_le (j k : nat) :
  (j ≤ k)%nat → Qc_of_Z (Z.of_nat j) ≤ Qc_of_Z (Z.of_nat k).
Proof.
  intros Hjk. exact (proj1 (Z2Qc_inj_le _ _) (proj1 (Nat2Z.inj_le j k) Hjk)).
Qed.

(** One step contributes at least as much under the larger selection. *)
Lemma contribution_mono (w1 w2 : ui) (n : Z) (t : ComplexityTier)
    (name : string) (cfg : config) :
  enlarges w1 w2 → (0 ≤ n)%Z →
  well_formed_step cfg → nonneg_config cfg →
  ∃ d1 d2, contribution w1 n (tier_key t) (name, cfg) = Ok d1
    ∧ contribution w2 n (tier_key t) (name, cfg) = Ok d2
    ∧ d1 ≤ d2.
Proof.
  intros Hlarger Hn Hcfg Hnonneg.
  destruct (contribution_well_formed w1 n t name cfg Hcfg)
    as (est & sub_cost & subs & Hest & Hsub & Hsubs & Hd1).
  destruct (contribution_well_formed w2 n t name cfg Hcfg)
    as (est' & sub_cost' & subs' & Hest' & Hsub' & Hsubs' & Hd2).
  assert (est' = est) as -> by congruence.
  assert (sub_cost' = sub_cost) as -> by congruence.
  assert (subs' = subs) as -> by congruence.
  assert (0 ≤ est) as Hest0
    by exact (calculate_hours_nonneg cfg n _ est Hnonneg Hn Hest).
  assert (0 ≤ sub_cost) as Hsub0
    by exact (calculate_hours_nonneg SUBSTEP_CONFIG n _ sub_cost
                (proj2 SUBSTEP_CONFIG_well_formed) Hn Hsub).
  eexists _, _. split; [exact Hd1|]. split; [exact Hd2|].
  destruct (checkbox w1 name) eqn:Hsel1.
  - destruct (Hlarger name Hsel1) as [-> Hsubset].
    apply Qcplus_le_mono_l. destruct (truthy subs); [|done].
    apply Qcmult_le_mono_nonneg_r; [done|].
    apply Qc_of_nat_le, submseteq_length, Hsubset.
  - destruct (checkbox w2 name); [|done].
    apply Qcplus_nonneg_nonneg; [done|]. destruct (truthy subs); [|done].
    apply Qcmult_nonneg_nonneg; [apply Qc_of_nat_nonneg|done].
Qed.

Lemma sum_contributions_mono (w1 w2 : ui) (n : Z) (t : ComplexityTier)
    (steps : list (string * config)) :
  enlarges w1 w2 → (0 ≤ n)%Z →
  Forall (λ item, well_formed_step item.2) steps →
  Forall (λ item, nonneg_config item.2) steps →
  ∃ t1 t2, sum_contributions w1 n (tier_key t) steps = Ok t1
    ∧ sum_contributions w2 n (tier_key t) steps = Ok t2
    ∧ t1 ≤ t2.
Proof.
  intros Hlarger Hn Hwf. induction Hwf as [|[name cfg] rest Hcfg _ IH].
  - intros _. by exists 0, 0.
  - intros Hnonneg. inversion_clear Hnonneg as [|? ? Hcfg0 Hrest0].
    destruct (IH Hrest0) as (r1 & r2 & Hr1 & Hr2 & Hr).
    destruct (contribution_mono w1 w2 n t name cfg Hlarger Hn Hcfg Hcfg0)
      as (d1 & d2 & Hd1 & Hd2 & Hd).
    exists (d1 + r1), (d2 + r2). cbn [sum_contributions].
    rewrite Hd1, Hd2, Hr1, Hr2. repeat split; [done..|].
    by apply Qcplus_le_compat.
Qed.

(** C10: with the shipped tables, a sample count of at least 1 and any
    tier, ticking more steps or selecting more substeps of a ticked step
    never lowers the total: both totals are returned, and the one of the
    larger selection is at least the other. *)
Theorem total_monotone_in_selection (w1 w2 : ui) (n : Z)
    (t : ComplexityTier) :
  (1 ≤ n)%Z →
  enlarges w1 w2 →
  ∃ t1 t2, computeTotal w1 n (tier_key t) PROJECT_STEPS = Ok t1
    ∧ computeTotal w2 n (tier_key t) PROJECT_STEPS = Ok t2
    ∧ t1 ≤ t2.
Proof.
  intros Hn Hlarger. rewrite !computeTotal_sum.
  apply sum_contributions_mono; [done|lia|..].
  - apply PROJECT_STEPS_defined.
  - apply PROJECT_STEPS_nonneg.
Qed.

Lemma only_step_enlarges (name : string) (subs subs' : list string) :
  subs ⊆+ subs' → enlarges (only_step name subs) (only_step name subs').
Proof.
  intros Hsubs key Hkey. cbn in Hkey. apply bool_decide_eq_true in Hkey as ->.
  split; [by apply bool_decide_eq_true|].
  intros opts. cbn. by rewrite !decide_True by done.
Qed.

Lemma total_monotone_in_selection_witness :
  ∃ t1 t2,
    computeTotal (only_step "Test Execution" ["Vibration"]) 4
      (tier_key Medium) PROJECT_STEPS = Ok t1
    ∧ computeTotal (only_step "Test Execution" ["Vibration"; "Salt Fog"]) 4
        (tier_key Medium) PROJECT_STEPS = Ok t2
    ∧ t1 ≤ t2.
Proof.
  apply (total_monotone_in_selection
           (only_step "Test Execution" ["Vibration"])
           (only_step "Test Execution" ["Vibration"; "Salt Fog"]) 4 Medium).
  - lia.
  - apply only_step_enlarges. apply submseteq_skip, submseteq_nil_l.
Defined.

(** * Further properties of [calculate_hours] *)

(** A configuration whose per-sample rate is 0 costs the same for every
    sample count from 0 on: its base times the multiplier. *)
Theorem zero_rate_ignores_samples (cfg : config) (n n' : Z) (c : string) :
  per_sample_of cfg = 0 →
  (0 ≤ n)%Z → (0 ≤ n')%Z →
  calculate_hours cfg n c = calculate_hours cfg n' c
  ∧ ∀ m, multipliers_of cfg !! c = Some m →
         calculate_hours cfg n c = Ok (base_of cfg * m).
Proof.
  intros Hp _ _. unfold calculate_hours. rewrite Hp, !Qcmult_0_l.
  split; [done|]. intros m Hm.
  by rewrite (getitem_Some _ _ _ Hm), Qcplus_0_r.
Qed.

Lemma zero_rate_ignores_samples_witness :
  calculate_hours (step (hrs 4.0) (hrs 0.0) COMPLEX_MULTS PyNone) 1 "High"
  = calculate_hours (step (hrs 4.0) (hrs 0.0) COMPLEX_MULTS PyNone) 25 "High"
  ∧ ∀ m, multipliers_of (step (hrs 4.0) (hrs 0.0) COMPLEX_MULTS PyNone)
         !! "High" = Some m →
         calculate_hours (step (hrs 4.0) (hrs 0.0) COMPLEX_MULTS PyNone) 1
           "High"
         = Ok (base_of (step (hrs 4.0) (hrs 0.0) COMPLEX_MULTS PyNone) * m).
Proof.
  apply (zero_rate_ignores_samples
           (step (hrs 4.0) (hrs 0.0) COMPLEX_MULTS PyNone) 1 25 "High").
  - compute_done.
  - lia.
  - lia.
Defined.

Lemma hrs_one : hrs 1.0 = 1.
Proof. compute_done. Qed.

(** A step that uses [DEFAULT_MULTS] is not affected by the complexity:
    for each tier it costs [base + per_sample * n]. *)
Theorem DEFAULT_MULTS_no_effect (b p : Qc) (s : substeps_value) (n : Z)
    (t : ComplexityTier) :
  calculate_hours (step b p DEFAULT_MULTS s) n (tier_key t)
  = Ok (b + p * Qc_of_Z n).
Proof.
  rewrite (calculate_hours_Ok _ _ _ (hrs 1.0)) by (destruct t; compute_done).
  cbn. by rewrite hrs_one, Qcmult_1_r.
Qed.

(** A step that uses [COMPLEX_MULTS] costs [base + per_sample * n] when
    "Easy"; its "Medium" cost is the "Easy" cost times 1.2 and its "High"
    cost the "Easy" cost times 1.5. *)
Theorem COMPLEX_MULTS_effect (b p : Qc) (s : substeps_value) (n : Z) :
  ∃ easy,
    easy = b + p * Qc_of_Z n
    ∧ calculate_hours (step b p COMPLEX_MULTS s) n "Easy" = Ok easy
    ∧ calculate_hours (step b p COMPLEX_MULTS s) n "Medium"
      = Ok (easy * hrs 1.2)
    ∧ calculate_hours (step b p COMPLEX_MULTS s) n "High"
      = Ok (easy * hrs 1.5).
Proof.
  eexists. split; [done|]. split; [|split].
  - rewrite (calculate_hours_Ok _ _ _ (hrs 1.0)) by compute_done.
    cbn. by rewrite hrs_one, Qcmult_1_r.
  - by rewrite (calculate_hours_Ok _ _ _ (hrs 1.2)) by compute_done.
  - by rewrite (calculate_hours_Ok _ _ _ (hrs 1.5)) by compute_done.
Qed.

(** * Failures of the loop *)

(** The display estimate is computed for every step before its checkbox
    is read: a step whose table has no entry for the complexity makes the
    whole run raise, ticked or not. *)
Theorem broken_step_raises (w : ui) (n : Z) (c : string)
    (steps : list (string * config)) (name : string) (cfg : config) :
  (name, cfg) ∈ steps →
  multipliers_of cfg !! c = None →
  ∃ e, main w n c steps = Raise e.
Proof.
  intros Hin Hm. unfold main. generalize (LoopState 0 []). revert Hin.
  induction steps as [|item rest IH]; intros Hin st.
  - by apply elem_of_nil in Hin.
  - cbn [run_loop]. apply elem_of_cons in Hin as [<-|Hin].
    + unfold loop_body. rewrite (calculate_hours_Raise _ _ _ Hm). by eexists.
    + destruct (loop_body w n c st item) as [st'|e]; [by apply IH|by eexists].
Qed.

Lemma broken_step_raises_witness :
  ∃ e, main nothing_selected 3 "Extreme" PROJECT_STEPS = Raise e.
Proof.
  apply (broken_step_raises nothing_selected 3 "Extreme" PROJECT_STEPS "NDA"
           (step (hrs 1.0) (hrs 0.0) DEFAULT_MULTS PyNone)).
  - apply list_elem_of_lookup. by exists 4%nat.
  - compute_done.
Defined.

(** A dictionary without a ["substeps"] key is harmless while its step is
    not ticked and raises [KeyError "substeps"] once it is. *)
Theorem missing_substeps_key (w : ui) (n : Z) (c : string) (st : loop_state)
    (name : string) (cfg : config) :
  substeps cfg = None →
  is_Some (multipliers_of cfg !! c) →
  loop_body w n c st (name, cfg)
  = if checkbox w name then Raise (KeyError "substeps") else Ok st.
Proof.
  intros Hsubs [m Hm]. unfold loop_body, get_substeps.
  rewrite (calculate_hours_Ok _ _ _ _ Hm), Hsubs. cbn [mbind result_bind].
  by destruct (checkbox w name).
Qed.

Lemma missing_substeps_key_witness :
  loop_body (only_step "Extra" []) 2 "Easy" (LoopState 0 [])
    ("Extra", SUBSTEP_CONFIG)
  = if checkbox (only_step "Extra" []) "Extra"
    then Raise (KeyError "substeps") else Ok (LoopState 0 []).
Proof.
  apply (missing_substeps_key (only_step "Extra" []) 2 "Easy").
  - reflexivity.
  - compute_done.
Defined.

(** * The captions *)

(** What one iteration does to the names in the captions. *)
Lemma loop_body_captions (w : ui) (n : Z) (c : string) (st st' : loop_state)
    (item : string * config) :
  loop_body w n c st item = Ok st' →
  (captions st').*1
  = ((captions st).*1 ++ filter (λ name, checkbox w name = true) [item.1])%list.
Proof.
  rewrite loop_body_contribution. destruct item as [name cfg].
  destruct (contribution w n c (name, cfg)) as [d|e]; [|done].
  cbn [mbind result_bind]. intros [= <-]. cbn [captions fst].
  unfold caption_of. cbn [fst]. destruct (checkbox w name) eqn:Hsel.
  - by rewrite fmap_app, filter_cons_True by done.
  - rewrite filter_cons_False by (by rewrite Hsel). by rewrite !app_nil_r.
Qed.

Lemma run_loop_captions (w : ui) (n : Z) (c : string)
    (steps : list (string * config)) (st st' : loop_state) :
  run_loop w n c steps st = Ok st' →
  (captions st').*1
  = ((captions st).*1 ++ filter (λ name, checkbox w name = true) steps.*1)%list.
Proof.
  revert st. induction steps as [|item rest IH]; intros st.
  - intros [= <-]. by rewrite app_nil_r.
  - cbn [run_loop]. destruct (loop_body w n c st item) as [st1|e] eqn:Hbody;
      [|done].
    cbn [mbind result_bind]. intros Hrest.
    rewrite (IH _ Hrest), (loop_body_captions _ _ _ _ _ _ Hbody).
    rewrite <-(assoc_L (++)). f_equal.
    by rewrite fmap_cons, <-list.filter_app.
Qed.

(** After a run that returns, the captions name exactly the ticked steps,
    once each and in the order of the step list. *)
Theorem captions_are_ticked_steps (w : ui) (n : Z) (c : string)
    (steps : list (string * config)) (st : loop_state) :
  main w n c steps = Ok st →
  (captions st).*1 = filter (λ name, checkbox w name = true) steps.*1.
Proof.
  intros Hmain. by rewrite (run_loop_captions _ _ _ _ _ _ Hmain).
Qed.

Lemma captions_are_ticked_steps_witness :
  ∃ st,
    main (only_step "Pre-ATP" ["Partial Discharge"]) 2 (tier_key High)
      PROJECT_STEPS = Ok st
    ∧ (captions st).*1
      = filter (λ name,
                checkbox (only_step "Pre-ATP" ["Partial Discharge"]) name
                = true) PROJECT_STEPS.*1.
Proof.
  destruct (run_loop_defined (only_step "Pre-ATP" ["Partial Discharge"]) 2
              High PROJECT_STEPS (LoopState 0 []) PROJECT_STEPS_defined)
    as [st Hst].
  exists st. split; [exact Hst|].
  exact (captions_are_ticked_steps _ 2 _ PROJECT_STEPS st Hst).
Defined.

(** * Widgets the loop does not consult *)




(** * Comparing two runs *)

(** If every call of [calculate_hours] made for a step costs no more in the
    second run than in the first, the step contributes no more. *)
Lemma contribution_le (w : ui) (n1 n2 : Z) (t1 t2 : ComplexityTier)
    (name : string) (cfg : config) :
  well_formed_step cfg →
  (∀ h1 h2, calculate_hours cfg n1 (tier_key t1) = Ok h1 →
            calculate_hours cfg n2 (tier_key t2) = Ok h2 → h1 ≤ h2) →
  (∀ h1 h2, calculate_hours SUBSTEP_CONFIG n1 (tier_key t1) = Ok h1 →
            calculate_hours SUBSTEP_CONFIG n2 (tier_key t2) = Ok h2 →
            h1 ≤ h2) →
  ∃ d1 d2, contribution w n1 (tier_key t1) (name, cfg) = Ok d1
    ∧ contribution w n2 (tier_key t2) (name, cfg) = Ok d2
    ∧ d1 ≤ d2.
Proof.
  intros Hcfg Hstep Hsubstep.
  destruct (contribution_well_formed w n1 t1 name cfg Hcfg)
    as (est1 & sub1 & subs & Hest1 & Hsub1 & Hsubs & Hd1).
  destruct (contribution_well_formed w n2 t2 name cfg Hcfg)
    as (est2 & sub2 & subs' & Hest2 & Hsub2 & Hsubs' & Hd2).
  assert (subs' = subs) as -> by congruence.
  eexists _, _. split; [exact Hd1|]. split; [exact Hd2|].
  destruct (checkbox w name); [|done].
  apply Qcplus_le_compat; [by apply Hstep|].
  destruct (truthy subs); [|done].
  apply Qcmult_le_mono_nonneg_l; [apply Qc_of_nat_nonneg|by apply Hsubstep].
Qed.

Lemma sum_contributions_le (w : ui) (n1 n2 : Z) (t1 t2 : ComplexityTier)
    (steps : list (string * config)) :
  Forall (λ item,
    ∃ d1 d2, contribution w n1 (tier_key t1) item = Ok d1
      ∧ contribution w n2 (tier_key t2) item = Ok d2
      ∧ d1 ≤ d2) steps →
  ∃ tot1 tot2, sum_contributions w n1 (tier_key t1) steps = Ok tot1
    ∧ sum_contributions w n2 (tier_key t2) steps = Ok tot2
    ∧ tot1 ≤ tot2.
Proof.
  induction 1 as [|item rest (d1 & d2 & Hd1 & Hd2 & Hd) _
                   (r1 & r2 & Hr1 & Hr2 & Hr)].
  - by exists 0, 0.
  - exists (d1 + r1), (d2 + r2). cbn [sum_contributions].
    rewrite Hd1, Hd2, Hr1, Hr2. repeat split; [done..|].
    by apply Qcplus_le_compat.
Qed.

Lemma calculate_hours_samples_mono (cfg : config) (n1 n2 : Z) (c : string)
    (h1 h2 : Qc) :
  nonneg_config cfg → (n1 ≤ n2)%Z →
  calculate_hours cfg n1 c = Ok h1 → calculate_hours cfg n2 c = Ok h2 →
  h1 ≤ h2.
Proof.
  intros (_ & Hp & HM) Hn H1 H2.
  apply calculate_hours_inv in H1 as (m & Hm & ->).
  apply calculate_hours_inv in H2 as (m' & Hm' & ->).
  assert (m' = m) as -> by congruence.
  apply Qcmult_le_mono_nonneg_r; [by apply (HM c)|].
  apply Qcplus_le_mono_l, Qcmult_le_mono_nonneg_l; [done|].
  exact (proj1 (Z2Qc_inj_le n1 n2) Hn).
Qed.

Lemma tier_key_lookup_ordered (cfg : config) (t1 t2 : ComplexityTier)
    (m1 m2 : Qc) :
  tiers_ordered cfg → (tier_rank t1 ≤ tier_rank t2)%nat →
  multipliers_of cfg !! tier_key t1 = Some m1 →
  multipliers_of cfg !! tier_key t2 = Some m2 →
  m1 ≤ m2.
Proof.
  unfold tiers_ordered.
  destruct (multipliers_of cfg !! "Easy") as [e|] eqn:HE; [|done].
  destruct (multipliers_of cfg !! "Medium") as [m|] eqn:HM; [|done].
  destruct (multipliers_of cfg !! "High") as [h|] eqn:HH; [|done].
  intros (He & Hem & Hmh) Hrank.
  destruct t1, t2; cbn in Hrank |- *; try lia;
    intros H1 H2; simplify_eq; try done.
  by trans m.
Qed.

Lemma calculate_hours_tier_mono (cfg : config) (n : Z)
    (t1 t2 : ComplexityTier) (h1 h2 : Qc) :
  nonneg_config cfg → tiers_ordered cfg → (0 ≤ n)%Z →
  (tier_rank t1 ≤ tier_rank t2)%nat →
  calculate_hours cfg n (tier_key t1) = Ok h1 →
  calculate_hours cfg n (tier_key t2) = Ok h2 →
  h1 ≤ h2.
Proof.
  intros (Hb & Hp & _) Hord Hn Hrank H1 H2.
  apply calculate_hours_inv in H1 as (m1 & Hm1 & ->).
  apply calculate_hours_inv in H2 as (m2 & Hm2 & ->).
  apply Qcmult_le_mono_nonneg_l;
    [|by apply (tier_key_lookup_ordered cfg t1 t2)].
  apply Qcplus_nonneg_nonneg; [done|].
  apply Qcmult_nonneg_nonneg; [done|].
  rewrite <-Z2Qc_inj_0. exact (proj1 (Z2Qc_inj_le 0 n) Hn).
Qed.

Lemma PROJECT_STEPS_ordered :
  Forall (λ item, tiers_ordered item.2) PROJECT_STEPS.
Proof. compute_done. Qed.

Lemma SUBSTEP_CONFIG_ordered : tiers_ordered SUBSTEP_CONFIG.
Proof. compute_done. Qed.

(** With the shipped tables and any selection, more samples never lower
    the total: for [n1 ≤ n2] both runs return and the total for [n1] is at
    most the total for [n2]. *)
Theorem total_monotone_in_samples (w : ui) (n1 n2 : Z) (t : ComplexityTier) :
  (n1 ≤ n2)%Z →
  ∃ tot1 tot2, computeTotal w n1 (tier_key t) PROJECT_STEPS = Ok tot1
    ∧ computeTotal w n2 (tier_key t) PROJECT_STEPS = Ok tot2
    ∧ tot1 ≤ tot2.
Proof.
  intros Hn. rewrite !computeTotal_sum. apply sum_contributions_le.
  pose proof PROJECT_STEPS_defined as Hwf.
  pose proof PROJECT_STEPS_nonneg as Hnonneg.
  rewrite list.Forall_forall in Hwf, Hnonneg. apply list.Forall_forall.
  intros [name cfg] Hin. apply contribution_le; [by apply (Hwf _ Hin)|..].
  - intros h1 h2. apply calculate_hours_samples_mono; [|done].
    by apply (Hnonneg _ Hin).
  - intros h1 h2. apply calculate_hours_samples_mono; [|done].
    apply SUBSTEP_CONFIG_well_formed.
Qed.

Lemma total_monotone_in_samples_witness :
  ∃ tot1 tot2,
    computeTotal (only_step "Test Reporting" []) 2 (tier_key Easy)
      PROJECT_STEPS = Ok tot1
    ∧ computeTotal (only_step "Test Reporting" []) 9 (tier_key Easy)
        PROJECT_STEPS = Ok tot2
    ∧ tot1 ≤ tot2.
Proof.
  apply (total_monotone_in_samples (only_step "Test Reporting" []) 2 9 Easy).
  lia.
Defined.

(** With the shipped tables, a sample count of at least 0 and any
    selection, a higher complexity never lowers the total: from "Easy" to
    "Medium" to "High" the total can only grow. *)
Theorem total_monotone_in_complexity (w : ui) (n : Z)
    (t1 t2 : ComplexityTier) :
  (0 ≤ n)%Z →
  (tier_rank t1 ≤ tier_rank t2)%nat →
  ∃ tot1 tot2, computeTotal w n (tier_key t1) PROJECT_STEPS = Ok tot1
    ∧ computeTotal w n (tier_key t2) PROJECT_STEPS = Ok tot2
    ∧ tot1 ≤ tot2.
Proof.
  intros Hn Hrank. rewrite !computeTotal_sum. apply sum_contributions_le.
  pose proof PROJECT_STEPS_defined as Hwf.
  pose proof PROJECT_STEPS_nonneg as Hnonneg.
  pose proof PROJECT_STEPS_ordered as Hord.
  rewrite list.Forall_forall in Hwf, Hnonneg, Hord. apply list.Forall_forall.
  intros [name cfg] Hin. apply contribution_le; [by apply (Hwf _ Hin)|..].
  - intros h1 h2. apply calculate_hours_tier_mono; [..|done|done].
    + by apply (Hnonneg _ Hin).
    + by apply (Hord _ Hin).
  - intros h1 h2. apply calculate_hours_tier_mono; [..|done|done].
    + apply SUBSTEP_CONFIG_well_formed.
    + apply SUBSTEP_CONFIG_ordered.
Qed.

Lemma total_monotone_in_complexity_witness :
  ∃ tot1 tot2,
    computeTotal (only_step "Test Execution" ["Salt Fog"]) 3 (tier_key Easy)
      PROJECT_STEPS = Ok tot1
    ∧ computeTotal (only_step "Test Execution" ["Salt Fog"]) 3
        (tier_key High) PROJECT_STEPS = Ok tot2
    ∧ tot1 ≤ tot2.
Proof.
  apply (total_monotone_in_complexity (only_step "Test Execution" ["Salt Fog"])
           3 Easy High).
  - lia.
  - cbn. lia.
Defined.

(** * The progress bar *)

Lemma two_hundred_pos : 0 < Qc_of_Z 200.
Proof. compute_done. Qed.

Lemma div_200_lt (x y : Qc) : x / Qc_of_Z 200 < y / Qc_of_Z 200 ↔ x < y.
Proof.
  unfold Qcdiv. symmetry. apply Qcmult_lt_mono_pos_r, Qcinv_pos.
  apply two_hundred_pos.
Qed.

Lemma div_200_le (x y : Qc) : x / Qc_of_Z 200 ≤ y / Qc_of_Z 200 ↔ x ≤ y.
Proof.
  unfold Qcdiv. symmetry. apply Qcmult_le_mono_pos_r, Qcinv_pos.
  apply two_hundred_pos.
Qed.

Lemma div_200_one : Qc_of_Z 200 / Qc_of_Z 200 = 1.
Proof. compute_done. Qed.

Lemma div_200_zero : 0 / Qc_of_Z 200 = 0.
Proof. compute_done. Qed.

Lemma one_lt_div_200 (x : Qc) : 1 < x / Qc_of_Z 200 ↔ Qc_of_Z 200 < x.
Proof.
  pose proof (div_200_lt (Qc_of_Z 200) x) as H.
  by rewrite div_200_one in H.
Qed.

Lemma div_200_le_one (x : Qc) : x / Qc_of_Z 200 ≤ 1 ↔ x ≤ Qc_of_Z 200.
Proof.
  pose proof (div_200_le x (Qc_of_Z 200)) as H.
  by rewrite div_200_one in H.
Qed.

Lemma div_200_pos (x : Qc) : 0 < x / Qc_of_Z 200 ↔ 0 < x.
Proof.
  pose proof (div_200_lt 0 x) as H.
  by rewrite div_200_zero in H.
Qed.

(** The bar is drawn exactly when the total is positive, and what is then
    passed to [st.progress] lies in the interval from 0 (excluded) to 1: it
    is [total / 200] up to a total of 200 hours and 1 from there on. *)
Theorem progress_value_range (total : Qc) :
  (progress_value total = None ↔ total ≤ 0)
  ∧ ∀ v, progress_value total = Some v →
      0 < v ∧ v ≤ 1
      ∧ (total ≤ Qc_of_Z 200 → v = total / Qc_of_Z 200)
      ∧ (Qc_of_Z 200 ≤ total → v = 1).
Proof.
  unfold progress_value. destruct (decide (0 < total)) as [Hpos|Hnpos].
  - split; [split; [done|]|].
    { intros Hle. by destruct (Qclt_not_le _ _ Hpos). }
    intros v [= <-]. unfold py_min. rewrite hrs_one.
    destruct (decide (1 < total / Qc_of_Z 200)) as [Hbig|Hsmall].
    + apply one_lt_div_200 in Hbig.
      split; [compute_done|]. split; [done|]. split; [|done].
      intros Hle. by destruct (Qclt_not_le _ _ Hbig).
    + apply Qcnot_lt_le in Hsmall.
      split; [by apply div_200_pos|]. split; [done|]. split; [done|].
      apply div_200_le_one in Hsmall. intros Hge.
      rewrite (anti_symm (≤) _ _ Hsmall Hge). apply div_200_one.
  - split; [split; [intros _; by apply Qcnot_lt_le|done]|done].
Qed.

Lemma progress_value_range_witness :
  0 < hrs 0.037 ∧ hrs 0.037 ≤ 1
  ∧ (hrs 7.4 ≤ Qc_of_Z 200 → hrs 0.037 = hrs 7.4 / Qc_of_Z 200)
  ∧ (Qc_of_Z 200 ≤ hrs 7.4 → hrs 0.037 = 1).
Proof.
  apply (proj2 (progress_value_range (hrs 7.4)) (hrs 0.037)).
  compute_done.
Defined.

(** ** When the bar is drawn *)

Lemma calculate_hours_pos (cfg : config) (n : Z) (c : string) (h : Qc) :
  pos_config cfg → (0 ≤ n)%Z → calculate_hours cfg n c = Ok h → 0 < h.
Proof.
  intros (Hb & Hp & HM) Hn Hh.
  apply calculate_hours_inv in Hh as (m & Hm & ->).
  apply Qcmult_pos_pos; [|by apply (HM c)].
  apply Qcplus_pos_nonneg; [done|].
  apply Qcmult_nonneg_nonneg; [done|].
  rewrite <-Z2Qc_inj_0. exact (proj1 (Z2Qc_inj_le 0 n) Hn).
Qed.

(** A step with a positive base costs something exactly when ticked. *)
Lemma contribution_pos (w : ui) (n : Z) (t : ComplexityTier) (name : string)
    (cfg : config) :
  well_formed_step cfg → pos_config cfg → (0 ≤ n)%Z →
  ∃ d, contribution w n (tier_key t) (name, cfg) = Ok d
    ∧ 0 ≤ d ∧ (0 < d ↔ checkbox w name = true).
Proof.
  intros Hcfg Hpos Hn.
  destruct (contribution_well_formed w n t name cfg Hcfg)
    as (est & sub_cost & subs & Hest & Hsub & _ & Hd).
  assert (0 < est) as Hest0
    by exact (calculate_hours_pos cfg n _ est Hpos Hn Hest).
  assert (0 ≤ sub_cost) as Hsub0
    by exact (calculate_hours_nonneg SUBSTEP_CONFIG n _ sub_cost
                (proj2 SUBSTEP_CONFIG_well_formed) Hn Hsub).
  eexists. split; [exact Hd|]. destruct (checkbox w name).
  - assert (0 < est + (if truthy subs
                       then Qc_of_Z (Z.of_nat (length
                              (multiselect w (options_of subs)
                                 (name +:+ "_sub")))) * sub_cost
                       else 0)) as Hd0.
    { apply Qcplus_pos_nonneg; [done|]. destruct (truthy subs); [|done].
      apply Qcmult_nonneg_nonneg; [apply Qc_of_nat_nonneg|done]. }
    split; [by apply Qclt_le_weak|done].
  - split; [done|]. split; [|done]. intros H0.
    by destruct (irreflexivity (<) _ H0).
Qed.

Lemma sum_contributions_pos (w : ui) (n : Z) (t : ComplexityTier)
    (steps : list (string * config)) :
  (0 ≤ n)%Z →
  Forall (λ item, well_formed_step item.2 ∧ pos_config item.2) steps →
  ∃ tot, sum_contributions w n (tier_key t) steps = Ok tot
    ∧ 0 ≤ tot
    ∧ (0 < tot ↔ Exists (λ item, checkbox w item.1 = true) steps).
Proof.
  intros Hn.
  induction 1 as [|[name cfg] rest [Hcfg Hpos] _ (r & Hr & Hr0 & Hrpos)].
  - exists 0. repeat split; [done|..].
    + intros H0. by destruct (irreflexivity (<) _ H0).
    + by intros ?%Exists_nil.
  - destruct (contribution_pos w n t name cfg Hcfg Hpos Hn)
      as (d & Hd & Hd0 & Hdpos).
    exists (d + r). cbn [sum_contributions]. rewrite Hd, Hr.
    split; [done|]. split; [by apply Qcplus_nonneg_nonneg|].
    rewrite Exists_cons. cbn [fst]. rewrite <-Hdpos, <-Hrpos. split.
    + intros Hsum. destruct (decide (0 < d)) as [|Hd']; [by left|right].
      apply Qcnot_lt_le in Hd'.
      assert (d = 0) as -> by by apply (anti_symm (≤)).
      by rewrite Qcplus_0_l in Hsum.
    + intros [Hd'|Hr']; [by apply Qcplus_pos_nonneg|by apply Qcplus_nonneg_pos].
Qed.

Lemma PROJECT_STEPS_pos :
  Forall (λ item, well_formed_step item.2 ∧ pos_config item.2) PROJECT_STEPS.
Proof. compute_done. Qed.

(** For a sample count of at least 0 and any tier the script returns a
    page, and the progress bar is drawn exactly when at least one of the
    shipped steps is ticked. *)
Theorem progress_bar_shown (w : ui) (n : Z) (t : ComplexityTier) :
  (0 ≤ n)%Z →
  ∃ pg, script w n (tier_key t) = Ok pg
    ∧ (is_Some (page_progress pg)
       ↔ Exists (λ item, checkbox w item.1 = true) PROJECT_STEPS).
Proof.
  intros Hn. unfold script.
  destruct (run_loop_defined w n t PROJECT_STEPS (LoopState 0 [])
              PROJECT_STEPS_defined) as [st Hst].
  fold (main w n (tier_key t) PROJECT_STEPS) in Hst. rewrite Hst.
  eexists. split; [done|]. cbn [page_progress].
  destruct (sum_contributions_pos w n t PROJECT_STEPS Hn PROJECT_STEPS_pos)
    as (tot & Htot & _ & <-).
  rewrite <-computeTotal_sum in Htot. unfold computeTotal in Htot.
  rewrite Hst in Htot. injection Htot as <-.
  unfold progress_value. destruct (decide (0 < total_hours st)) as [Hpos|Hnpos].
  - split; [done|by eexists].
  - split; [by intros [? [=]]|done].
Qed.

Lemma progress_bar_shown_witness :
  ∃ pg, script (only_step "NDA" []) 1 (tier_key Easy) = Ok pg
    ∧ (is_Some (page_progress pg)
       ↔ Exists (λ item, checkbox (only_step "NDA" []) item.1 = true)
           PROJECT_STEPS).
Proof. apply (progress_bar_shown (only_step "NDA" []) 1 Easy). lia. Defined.
